(** * tap-tiktok: the REST client of the TikTok tap

    A shallow embedding of [tap_tiktok/client.py]: the classes
    [TikTokStream] and [TikTokReportsStream], over a small model of the
    Python values the client handles (configuration, request context,
    JSON response bodies, request parameters and headers).

    Conventions.
    - A Python value is a [pyval].  JSON numbers are integers here: page
      numbers, page counts and page sizes are; floating point values are
      outside the model.
    - A Python [str] is a [string] whose characters are the code points
      U+0000 to U+00FF.
    - A Python [dict] with string keys is an insertion-ordered association
      list, read and written through [dict_get] and [dict_set] only.
    - A call that may raise returns a [result]; a generator is described by
      its [run]: the values it yields and the way it ends. *)

From Stdlib Require Import ZArith String Ascii List Bool Lia DecimalString.
Import ListNotations.

Local Open Scope string_scope.
Local Open Scope Z_scope.

(** ** Python values *)

#[warnings="-register-all"]
Inductive pyval : Type :=
| PNone
| PBool (b : bool)
| PInt (z : Z)
| PStr (s : string)
| PList (l : list pyval)
| PDict (d : list (string * pyval)).

Definition dict : Type := list (string * pyval).

(** Exceptions the client can raise, by class. *)
Inductive exn : Type :=
| RuntimeError (msg : string)
| KeyError (key : string)
| IndexError
| TypeError.

Inductive result (A : Type) : Type :=
| Ok (a : A)
| Raise (e : exn).

Arguments Ok {A} a.
Arguments Raise {A} e.

Definition bind {A B : Type} (r : result A) (k : A -> result B) : result B :=
  match r with
  | Ok a => k a
  | Raise e => Raise e
  end.

Notation "'let*' x ':=' r 'in' k" := (bind r (fun x => k))
  (at level 10, x name, r at level 100, k at level 200).

(** *** Characters and strings *)

Definition code (c : ascii) : N := N_of_ascii c.

Definition chr (n : N) : ascii := ascii_of_N n.

Definition dquote : ascii := chr 34.
Definition squote : ascii := chr 39.
Definition backslash : ascii := chr 92.

Definition str1 (c : ascii) : string := String c EmptyString.

(** [str.isspace] on one character of the range. *)
Definition is_space (c : ascii) : bool :=
  let n := code c in
  ((9 <=? n) && (n <=? 13) || (28 <=? n) && (n <=? 32)
   || (n =? 133) || (n =? 160))%N.

Fixpoint lstrip (s : string) : string :=
  match s with
  | EmptyString => EmptyString
  | String c s' => if is_space c then lstrip s' else s
  end.

Fixpoint rstrip (s : string) : string :=
  match s with
  | EmptyString => EmptyString
  | String c s' =>
      match rstrip s' with
      | EmptyString => if is_space c then EmptyString else str1 c
      | r => String c r
      end
  end.

(** [s.strip()] *)
Definition strip (s : string) : string := rstrip (lstrip s).

Fixpoint contains (c : ascii) (s : string) : bool :=
  match s with
  | EmptyString => false
  | String c' s' => Ascii.eqb c c' || contains c s'
  end.

Definition hex_digit (n : N) : ascii :=
  if (n <? 10)%N then chr (48 + n) else chr (87 + n).

Definition hex2 (n : N) : string :=
  String (hex_digit (n / 16)) (str1 (hex_digit (n mod 16))).

(** [str(z)] for an integer. *)
Definition str_of_int (z : Z) : string := NilZero.string_of_int (Z.to_int z).

(** [repr] of one character of a string quoted with [q]. *)
Definition repr_char (q c : ascii) : string :=
  let n := code c in
  if Ascii.eqb c q || Ascii.eqb c backslash then String backslash (str1 c)
  else if (n =? 9)%N then String backslash "t"
  else if (n =? 10)%N then String backslash "n"
  else if (n =? 13)%N then String backslash "r"
  else if ((n <? 32) || (n =? 127) || (128 <=? n) && (n <=? 160) || (n =? 173))%N
       then String backslash ("x" ++ hex2 n)
  else str1 c.

Fixpoint repr_chars (q : ascii) (s : string) : string :=
  match s with
  | EmptyString => EmptyString
  | String c s' => repr_char q c ++ repr_chars q s'
  end.

(** [repr(s)] for a string: single quotes, unless the string holds a single
    quote and no double quote. *)
Definition repr_str (s : string) : string :=
  let q := if contains squote s && negb (contains dquote s) then dquote else squote in
  String q (repr_chars q s ++ str1 q).

(** [repr(v)] *)
Fixpoint py_repr (v : pyval) : string :=
  match v with
  | PNone => "None"
  | PBool true => "True"
  | PBool false => "False"
  | PInt z => str_of_int z
  | PStr s => repr_str s
  | PList l =>
      "[" ++ (fix items (l : list pyval) : string :=
                match l with
                | [] => ""
                | x :: l' =>
                    match l' with
                    | [] => py_repr x
                    | _ :: _ => py_repr x ++ ", " ++ items l'
                    end
                end) l ++ "]"
  | PDict d =>
      "{" ++ (fix items (d : list (string * pyval)) : string :=
                match d with
                | [] => ""
                | (k, x) :: d' =>
                    match d' with
                    | [] => repr_str k ++ ": " ++ py_repr x
                    | _ :: _ => repr_str k ++ ": " ++ py_repr x ++ ", " ++ items d'
                    end
                end) d ++ "}"
  end.

(** [str(v)], also [v.__str__()] *)
Definition py_str (v : pyval) : string :=
  match v with
  | PStr s => s
  | _ => py_repr v
  end.

(** [bool(v)]: the truth value of [v] in a condition. *)
Definition truthy (v : pyval) : bool :=
  match v with
  | PNone => false
  | PBool b => b
  | PInt z => negb (z =? 0)
  | PStr s => negb (String.eqb s "")
  | PList l => match l with [] => false | _ :: _ => true end
  | PDict d => match d with [] => false | _ :: _ => true end
  end.

(** [a or b] *)
Definition py_or (a b : pyval) : pyval := if truthy a then a else b.

(** [s] is blank: [str.strip] leaves nothing of it. *)
Definition blank (s : string) : bool := String.eqb (strip s) "".

(** *** Comparison and arithmetic *)

(** The integer a number stands for; [bool] is a subclass of [int]. *)
Definition as_int (v : pyval) : option Z :=
  match v with
  | PInt z => Some z
  | PBool b => Some (if b then 1 else 0)
  | _ => None
  end.

Fixpoint dict_get (k : string) (d : dict) : option pyval :=
  match d with
  | [] => None
  | (k', v) :: d' => if String.eqb k k' then Some v else dict_get k d'
  end.

(** [a == b] *)
Fixpoint py_eq (a b : pyval) : bool :=
  match a, b with
  | PNone, PNone => true
  | PInt x, PInt y => x =? y
  | PInt x, PBool c => x =? (if c then 1 else 0)
  | PBool c, PInt y => (if c then 1 else 0) =? y
  | PBool c, PBool c' => Bool.eqb c c'
  | PStr s, PStr t => String.eqb s t
  | PList l, PList m =>
      (fix all2 (l m : list pyval) : bool :=
         match l, m with
         | [], [] => true
         | x :: l', y :: m' => py_eq x y && all2 l' m'
         | _, _ => false
         end) l m
  | PDict d, PDict e =>
      (length d =? length e)%nat &&
      (fix all_in (d : list (string * pyval)) : bool :=
         match d with
         | [] => true
         | (k, x) :: d' =>
             match dict_get k e with
             | Some y => py_eq x y && all_in d'
             | None => false
             end
         end) d
  | _, _ => false
  end.

(** [a < b]: numbers by value, strings and lists lexicographically; any
    other pair of operands raises [TypeError]. *)
Fixpoint py_lt (a b : pyval) : result bool :=
  match a, b with
  | PInt x, PInt y => Ok (x <? y)
  | PInt x, PBool c => Ok (x <? (if c then 1 else 0))
  | PBool c, PInt y => Ok ((if c then 1 else 0) <? y)
  | PBool c, PBool c' => Ok (negb c && c')
  | PStr s, PStr t => Ok (String.ltb s t)
  | PList l, PList m =>
      (fix lex (l m : list pyval) : result bool :=
         match l, m with
         | _, [] => Ok false
         | [], _ :: _ => Ok true
         | x :: l', y :: m' => if py_eq x y then lex l' m' else py_lt x y
         end) l m
  | _, _ => Raise TypeError
  end.

(** [a + b] *)
Definition py_add (a b : pyval) : result pyval :=
  match a, b with
  | PStr s, PStr t => Ok (PStr (s ++ t))
  | PList l, PList m => Ok (PList (l ++ m))
  | _, _ =>
      match as_int a, as_int b with
      | Some x, Some y => Ok (PInt (x + y))
      | _, _ => Raise TypeError
      end
  end.

(** *** Dictionaries *)

Definition dict_mem (k : string) (d : dict) : bool :=
  match dict_get k d with
  | Some _ => true
  | None => false
  end.

(** [d.get(k)] *)
Definition dict_get_or_none (k : string) (d : dict) : pyval :=
  match dict_get k d with
  | Some v => v
  | None => PNone
  end.

(** [d[k]] *)
Definition dict_item (k : string) (d : dict) : result pyval :=
  match dict_get k d with
  | Some v => Ok v
  | None => Raise (KeyError k)
  end.

(** [d[k] = v]: a key already there keeps its place, a new key goes last. *)
Fixpoint dict_set (k : string) (v : pyval) (d : dict) : dict :=
  match d with
  | [] => [(k, v)]
  | (k', v') :: d' =>
      if String.eqb k k' then (k, v) :: d' else (k', v') :: dict_set k v d'
  end.

(** [{**d, **m}]: the items of [d], then those of [m] written over them in
    order. *)
Definition dict_merge (d m : dict) : dict :=
  fold_left (fun acc kv => dict_set (fst kv) (snd kv) acc) m d.

(** The keys of a dictionary are distinct. *)
Definition dict_wf (d : dict) : Prop := NoDup (map fst d).

(** *** json.dumps *)

Definition hex4 (n : N) : string := hex2 (n / 256) ++ hex2 (n mod 256).

Definition json_char (c : ascii) : string :=
  let n := code c in
  if Ascii.eqb c dquote || Ascii.eqb c backslash then String backslash (str1 c)
  else if (n =? 8)%N then String backslash "b"
  else if (n =? 9)%N then String backslash "t"
  else if (n =? 10)%N then String backslash "n"
  else if (n =? 12)%N then String backslash "f"
  else if (n =? 13)%N then String backslash "r"
  else if ((n <? 32) || (126 <? n))%N then String backslash ("u" ++ hex4 n)
  else str1 c.

Fixpoint json_chars (s : string) : string :=
  match s with
  | EmptyString => EmptyString
  | String c s' => json_char c ++ json_chars s'
  end.

Definition json_string (s : string) : string :=
  String dquote (json_chars s ++ str1 dquote).

(** [json.dumps(v)] with the default separators and [ensure_ascii]. *)
Fixpoint json_dumps (v : pyval) : string :=
  match v with
  | PNone => "null"
  | PBool true => "true"
  | PBool false => "false"
  | PInt z => str_of_int z
  | PStr s => json_string s
  | PList l =>
      "[" ++ (fix items (l : list pyval) : string :=
                match l with
                | [] => ""
                | x :: l' =>
                    match l' with
                    | [] => json_dumps x
                    | _ :: _ => json_dumps x ++ ", " ++ items l'
                    end
                end) l ++ "]"
  | PDict d =>
      "{" ++ (fix items (d : list (string * pyval)) : string :=
                match d with
                | [] => ""
                | (k, x) :: d' =>
                    match d' with
                    | [] => json_string k ++ ": " ++ json_dumps x
                    | _ :: _ => json_string k ++ ": " ++ json_dumps x ++ ", " ++ items d'
                    end
                end) d ++ "}"
  end.

(** *** Generators *)

(** How the run of a generator ends: it is exhausted, it raises, or the
    bound on the number of requests was reached with more to come. *)
Inductive ending : Type :=
| Finished
| Raised (e : exn)
| Pending.

(** A run of a generator: what it yielded, in order, and how it ended. *)
Record run : Type := mkRun { yielded : list pyval; ends : ending }.

Definition finished : run := mkRun [] Finished.

Definition raised (e : exn) : run := mkRun [] (Raised e).

Definition yield (v : pyval) : run := mkRun [v] Finished.

(** [r] and, once [r] is exhausted, [k]. *)
Definition and_then (r k : run) : run :=
  match ends r with
  | Finished => mkRun (yielded r ++ yielded k) (ends k)
  | _ => r
  end.

(** [for x in xs: yield from g(x)] *)
Fixpoint yield_from_each {A : Type} (g : A -> run) (xs : list A) : run :=
  match xs with
  | [] => finished
  | x :: xs' => and_then (g x) (yield_from_each g xs')
  end.

(** ** JSONPath, as [singer_sdk.helpers.jsonpath] gives it *)

Inductive step : Type :=
| Field (name : string)
| Star.

Definition flush (name : string) : list step :=
  if String.eqb name "" || String.eqb name "$" then [] else [Field name].

(** The steps of a path such as [$.data.list[*]]: child fields separated by
    dots, and the wildcard subscript. *)
Fixpoint parse_steps (name path : string) : list step :=
  match path with
  | EmptyString => flush name
  | String "." rest => flush name ++ parse_steps "" rest
  | String "[" (String "*" (String "]" rest)) =>
      flush name ++ Star :: parse_steps "" rest
  | String c rest => parse_steps (name ++ str1 c) rest
  end.

Definition parse_path (path : string) : list step := parse_steps "" path.

(** What a wildcard ranges over: the items of a list; a falsy value gives
    nothing and any other value stands for the one-item list holding it. *)
Definition star_items (v : pyval) : list pyval :=
  match v with
  | PList l => l
  | _ => if truthy v then [v] else []
  end.

(** The values a path matches in [v], in document order.  A field matches in
    an object that has it with a value other than null. *)
Fixpoint find (p : list step) (v : pyval) : list pyval :=
  match p with
  | [] => [v]
  | Field f :: p' =>
      match v with
      | PDict d =>
          match dict_get f d with
          | Some PNone | None => []
          | Some x => find p' x
          end
      | _ => []
      end
  | Star :: p' => flat_map (find p') (star_items v)
  end.

(** [extract_jsonpath(expression, input)] *)
Definition extract_jsonpath (expression : string) (input : pyval) : list pyval :=
  find (parse_path expression) input.

(** ** Small helpers for the Python idioms of the client *)

Definition is_none (v : pyval) : bool :=
  match v with
  | PNone => true
  | _ => false
  end.

(** [isinstance(v, list)] *)
Definition is_list (v : pyval) : bool :=
  match v with
  | PList _ => true
  | _ => false
  end.

(** The items a [for] over [v] visits, for a list. *)
Definition list_items (v : pyval) : list pyval :=
  match v with
  | PList l => l
  | _ => []
  end.

(** [context or {}] for an optional dictionary. *)
Definition or_empty (context : option dict) : dict :=
  match context with
  | Some c => c
  | None => []
  end.

(** [l[0]] *)
Definition first {A : Type} (l : list A) : result A :=
  match l with
  | x :: _ => Ok x
  | [] => Raise IndexError
  end.

(** [next(iter(matches), None)] *)
Definition next_or_none (matches : list pyval) : pyval := hd PNone matches.

(** ** class TikTokStream(RESTStream) *)

Module TikTokStream.

Definition url_base : string := "https://business-api.tiktok.com/open_api/v1.3".

Definition records_jsonpath : string := "$.data.list[*]".

Definition missing_ids : string :=
  "Missing advertiser_id(s). Set `advertiser_ids` (list) or `advertiser_id` (string).".

Section Stream.

(** [self.config] *)
Variable config : dict.

(** [super().get_records]: the fetch cycle of the SDK's [RESTStream], which
    this class wraps; it is given the request context. *)
Variable super_get_records : dict -> run.

(** Return advertiser IDs from config (supports advertiser_ids or
    advertiser_id). *)
Definition _configured_advertiser_ids : result (list string) :=
  let advertiser_ids := dict_get_or_none "advertiser_ids" config in
  if is_list advertiser_ids && truthy advertiser_ids then
    Ok (map py_str
          (filter (fun x => negb (is_none x) && truthy (PStr (strip (py_str x))))
                  (list_items advertiser_ids)))
  else
    let advertiser_id := dict_get_or_none "advertiser_id" config in
    if negb (is_none advertiser_id) && truthy (PStr (strip (py_str advertiser_id))) then
      Ok [py_str advertiser_id]
    else
      Raise (RuntimeError missing_ids).

(** Run the stream once per advertiser_id. *)
Definition get_records (context : option dict) : run :=
  let base_ctx := or_empty context in
  match _configured_advertiser_ids with
  | Raise e => raised e
  | Ok ids =>
      yield_from_each
        (fun advertiser_id =>
           let local_ctx := dict_set "advertiser_id" (PStr advertiser_id) base_ctx in
           super_get_records local_ctx)
        ids
  end.

(** Prefer context; fall back to first configured id. *)
Definition _resolve_advertiser_id (context : option dict) : result string :=
  if truthy (PDict (or_empty context))
     && truthy (dict_get_or_none "advertiser_id" (or_empty context)) then
    let* v := dict_item "advertiser_id" (or_empty context) in
    Ok (py_str v)
  else
    let* ids := _configured_advertiser_ids in
    first ids.

(** Return the http headers needed. *)
Definition http_headers : result dict :=
  let headers : dict := [] in
  let headers :=
    if dict_mem "user_agent" config then
      dict_set "User-Agent" (dict_get_or_none "user_agent" config) headers
    else headers in
  let headers := dict_set "Content-Type" (PStr "application/json") headers in
  let* token := dict_item "access_token" config in
  Ok (dict_set "Access-Token" (PStr (py_str token)) headers).

Definition _get_page_info (json_path : string) (json : pyval) : pyval :=
  let page_matches := extract_jsonpath json_path json in
  next_or_none page_matches.

(** Return a token for identifying next page or None if no more pages.
    [response] is the parsed body, [response.json()]. *)
Definition get_next_page_token (response previous_token : pyval) : result pyval :=
  let current_page := py_or (_get_page_info "$.data.page_info.page" response) (PInt 0) in
  let total_pages := py_or (_get_page_info "$.data.page_info.total_page" response) (PInt 0) in
  let* less := py_lt current_page total_pages in
  if less then py_add current_page (PInt 1) else Ok PNone.

(** Return a dictionary of values to be used in URL parameterization. *)
Definition get_url_params (context : option dict) (next_page_token : pyval)
  : result dict :=
  let* advertiser_id := _resolve_advertiser_id context in
  let params : dict := [("advertiser_id", PStr advertiser_id)] in
  let params :=
    if truthy next_page_token then dict_set "page" next_page_token params
    else params in
  let params :=
    dict_set "filtering"
      (PStr (json_dumps
               (PDict [("primary_status",
                        PStr (if truthy (dict_get_or_none "include_deleted" config)
                              then "STATUS_ALL" else "STATUS_NOT_DELETE"))])))
      params in
  let params := dict_set "page_size" (PInt 10) params in
  Ok params.

End Stream.

End TikTokStream.

(** ** class TikTokReportsStream(TikTokStream) *)

Module TikTokReportsStream.

Definition url_base : string :=
  "https://business-api.tiktok.com/open_api/v1.3/report/integrated/get/".

Definition records_jsonpath : string := "$.data.list[*]".

Definition next_page_token_jsonpath : string := "$.page_info.page".

(** [{**row["dimensions"], **row["metrics"]}]: each operand is read, then
    unpacked, before the next one is read. *)
Definition post_process (row : pyval) (context : option dict) : result pyval :=
  match row with
  | PDict r =>
      let* dimensions := dict_item "dimensions" r in
      match dimensions with
      | PDict d =>
          let* metrics := dict_item "metrics" r in
          match metrics with
          | PDict m => Ok (PDict (dict_merge d m))
          | _ => Raise TypeError
          end
      | _ => Raise TypeError
      end
  | _ => Raise TypeError
  end.

(** Return a token for identifying next page or None if no more pages. *)
Definition get_next_page_token (response previous_token : pyval) : result pyval :=
  let page_matches := extract_jsonpath "$.data.page_info.page" response in
  let page_match := next_or_none page_matches in
  let current_page := page_match in
  let total_pages_matches := extract_jsonpath "$.data.page_info.total_page" response in
  let total_pages_match := next_or_none total_pages_matches in
  let total_pages := total_pages_match in
  let* less := py_lt current_page total_pages in
  if less then py_add current_page (PInt 1) else Ok PNone.

End TikTokReportsStream.

(** ** The fetch cycle of the SDK's RESTStream

    [RESTStream.get_records] is the cycle the client's [get_records] wraps:
    prepare a request, send it, yield the post-processed records of the
    response, ask [get_next_page_token] for the next page, and go on until
    the token is falsy.  The stream's own methods and the remote API are
    the parameters; [fuel] bounds the number of requests. *)

Module RESTStream.

Section Cycle.

Variable get_url_params : option dict -> pyval -> result dict.
Variable http_headers : result dict.
Variable get_next_page_token : pyval -> pyval -> result pyval.
Variable post_process : pyval -> option dict -> result pyval.
Variable records_jsonpath : string.

(** The API: the parsed body of the response to a request, given the
    request's parameters and headers. *)
Variable send : dict -> dict -> pyval.

(** The records of one response, post-processed; a record that
    [post_process] maps to None is skipped. *)
Fixpoint emit (records : list pyval) (context : option dict) : run :=
  match records with
  | [] => finished
  | record :: records' =>
      match post_process record context with
      | Raise e => raised e
      | Ok transformed_record =>
          if is_none transformed_record then emit records' context
          else and_then (yield transformed_record) (emit records' context)
      end
  end.

Definition loop_detected (token : pyval) : string :=
  "Loop detected in pagination. Pagination token " ++ py_str token
    ++ " is identical to prior token.".

Fixpoint request_records (fuel : nat) (context : option dict)
         (next_page_token : pyval) : run :=
  match fuel with
  | O => mkRun [] Pending
  | S fuel' =>
      match get_url_params context next_page_token with
      | Raise e => raised e
      | Ok params =>
          match http_headers with
          | Raise e => raised e
          | Ok headers =>
              let resp := send params headers in
              and_then
                (emit (extract_jsonpath records_jsonpath resp) context)
                (match get_next_page_token resp next_page_token with
                 | Raise e => raised e
                 | Ok token =>
                     if truthy token && py_eq token next_page_token then
                       raised (RuntimeError (loop_detected token))
                     else if truthy token then
                       request_records fuel' context token
                     else finished
                 end)
          end
      end
  end.

Definition get_records (fuel : nat) (context : option dict) : run :=
  request_records fuel context PNone.

End Cycle.

(** [Stream.post_process]: the record as it is. *)
Definition post_process (row : pyval) (context : option dict) : result pyval :=
  Ok row.

End RESTStream.

(** The base stream, with the SDK's cycle for [super().get_records]. *)
Definition base_stream (config : dict) (send : dict -> dict -> pyval)
           (fuel : nat) (context : option dict) : run :=
  TikTokStream.get_records config
    (fun local_ctx =>
       RESTStream.get_records
         (TikTokStream.get_url_params config)
         (TikTokStream.http_headers config)
         TikTokStream.get_next_page_token
         RESTStream.post_process
         TikTokStream.records_jsonpath
         send fuel (Some local_ctx))
    context.

(** ** Sample data *)

(** A response body carrying the given page information and no record. *)
Definition page_info_body (page total_page : pyval) : pyval :=
  PDict [("data", PDict [("list", PList []);
                         ("page_info", PDict [("page", page);
                                              ("total_page", total_page)])])].

(** An API with two pages of one record for every advertiser. *)
Definition two_pages (params headers : dict) : pyval :=
  let advertiser_id := py_str (dict_get_or_none "advertiser_id" params) in
  let page := py_or (dict_get_or_none "page" params) (PInt 1) in
  PDict [("code", PInt 0);
         ("data",
          PDict [("list",
                  PList [PDict [("name",
                                 PStr (advertiser_id ++ "-page" ++ py_str page))]]);
                 ("page_info", PDict [("page", page); ("total_page", PInt 2)])])].

Definition two_tenants : dict :=
  [("access_token", PStr "secret");
   ("advertiser_ids", PList [PStr "A"; PStr "B"])].

Definition report_row : pyval :=
  PDict [("dimensions", PDict [("date", PStr "2024-01-01")]);
         ("metrics", PDict [("clicks", PInt 5)])].

(** A configuration whose list of identifiers holds blank entries only. *)
Definition blank_ids : dict :=
  [("access_token", PStr "secret");
   ("advertiser_ids", PList [PStr ""; PNone; PStr "  "])].

(** ** Vocabulary of the statements *)

Fixpoint all_space (s : string) : bool :=
  match s with
  | EmptyString => true
  | String c s' => is_space c && all_space s'
  end.

(** An element that is neither null nor blank once coerced to a string. *)
Definition kept (x : pyval) : bool :=
  negb (is_none x) && negb (blank (py_str x)).

(** The configuration has no non-empty list under [advertiser_ids]. *)
Definition no_id_list (config : dict) : Prop :=
  forall l, dict_get "advertiser_ids" config = Some (PList l) -> l = [].

(** The identifiers a configuration resolves to: from the non-empty list
    [advertiser_ids], else from the scalar [advertiser_id]. *)
Inductive resolves (config : dict) : list string -> Prop :=
| resolves_list (l : list pyval) :
    dict_get "advertiser_ids" config = Some (PList l) ->
    l <> [] ->
    resolves config (map py_str (filter kept l))
| resolves_scalar (v : pyval) :
    no_id_list config ->
    dict_get "advertiser_id" config = Some v ->
    kept v = true ->
    resolves config [py_str v].

(** Neither a non-empty list [advertiser_ids] nor a non-blank
    [advertiser_id] is set. *)
Definition unconfigured (config : dict) : Prop :=
  no_id_list config /\
  forall v, dict_get "advertiser_id" config = Some v -> kept v = false.

(** The page information read at [path]: the integer [z] when the first
    match is [z]; 0 when the path matches nothing. *)
Definition page_reads (path : string) (response : pyval) (z : Z) : Prop :=
  match extract_jsonpath path response with
  | [] => z = 0
  | v :: _ => v = PInt z
  end.

(** The context for one tenant in [get_records]. *)
Definition tenant_context (context : option dict) (advertiser_id : string) : dict :=
  dict_set "advertiser_id" (PStr advertiser_id) (or_empty context).

(** The advertiser_id a context carries, when present. *)
Definition context_id (context : option dict) : option pyval :=
  match dict_get "advertiser_id" (or_empty context) with
  | Some PNone | None => None
  | Some v => Some v
  end.

(** The reading of [get_url_params] by presence: the context's
    advertiser_id when present, else the first resolved identifier. *)
Definition advertiser_by_presence (config : dict) (context : option dict)
           (a : string) : Prop :=
  match context_id context with
  | Some v => a = py_str v
  | None =>
      exists ids, TikTokStream._configured_advertiser_ids config = Ok ids
                  /\ first ids = Ok a
  end.

(** The reading of [get_url_params] by presence: no page for an absent
    token, the token for any other. *)
Definition page_by_presence (next_page_token : pyval) (params : dict) : Prop :=
  dict_get "page" params = if is_none next_page_token then None else Some next_page_token.

(** A request context as the stream receives it: the advertiser_id it
    carries, if any, is null or truthy.  [get_records] puts a resolved
    identifier there, a string that is not blank. *)
Definition request_context (context : option dict) : Prop :=
  forall v, dict_get "advertiser_id" (or_empty context) = Some v ->
            v = PNone \/ truthy v = true.

(** A next-page token as the fetch cycle passes it: absent on the first
    call, and afterwards a truthy value, a page number from 1 on. *)
Definition page_token (next_page_token : pyval) : Prop :=
  next_page_token = PNone \/ truthy next_page_token = true.

(** The tenant of a request: the context's advertiser_id when it is truthy,
    else the first resolved identifier. *)
Definition tenant_of (config : dict) (context : option dict) : result string :=
  let v := dict_get_or_none "advertiser_id" (or_empty context) in
  if truthy v then Ok (py_str v)
  else
    let* ids := TikTokStream._configured_advertiser_ids config in
    first ids.

(** The filter on the status of the entities. *)
Definition status_filter (status : string) : pyval :=
  PDict [("primary_status", PStr status)].

Definition quoted (s : string) : string := String dquote (s ++ str1 dquote).

(** * Properties *)

(** ** Strings *)

Lemma rstrip_empty (s : string) : rstrip s = "" <-> all_space s = true.
Proof.
  induction s as [|c s IH]; simpl.
  - tauto.
  - destruct (rstrip s) eqn:E.
    + destruct (is_space c); simpl.
      * rewrite <- IH. tauto.
      * split; discriminate.
    + split; [discriminate|].
      rewrite andb_true_iff. intros [_ H]. apply IH in H. discriminate.
Qed.

Lemma lstrip_head (s : string) :
  lstrip s = "" \/ exists c r, lstrip s = String c r /\ is_space c = false.
Proof.
  induction s as [|c s IH]; simpl.
  - now left.
  - destruct (is_space c) eqn:E; [exact IH|]. right. now exists c, s.
Qed.

Lemma lstrip_empty (s : string) : lstrip s = "" <-> all_space s = true.
Proof.
  induction s as [|c s IH]; simpl.
  - tauto.
  - destruct (is_space c); simpl; [exact IH|]. split; discriminate.
Qed.

(** A string is blank exactly when all its characters are white space. *)
Lemma blank_all_space (s : string) : blank s = all_space s.
Proof.
  unfold blank, strip.
  destruct (all_space s) eqn:E.
  - apply lstrip_empty in E. now rewrite E.
  - apply String.eqb_neq. intros H. apply rstrip_empty in H.
    destruct (lstrip_head s) as [L | (c & r & L & Hc)].
    + apply lstrip_empty in L. congruence.
    + rewrite L in H. simpl in H. rewrite Hc in H. discriminate.
Qed.

Lemma truthy_strip (s : string) : truthy (PStr (strip s)) = negb (blank s).
Proof. reflexivity. Qed.

(** ** Dictionaries *)

Lemma dict_get_set_same (k : string) (v : pyval) (d : dict) :
  dict_get k (dict_set k v d) = Some v.
Proof.
  induction d as [|[k' v'] d IH]; simpl.
  - now rewrite String.eqb_refl.
  - destruct (String.eqb k k') eqn:E; simpl.
    + now rewrite String.eqb_refl.
    + now rewrite E.
Qed.

Lemma dict_get_set_other (k k' : string) (v : pyval) (d : dict) :
  k <> k' -> dict_get k (dict_set k' v d) = dict_get k d.
Proof.
  intros N. apply String.eqb_neq in N.
  induction d as [|[k0 v0] d IH]; simpl.
  - now rewrite N.
  - destruct (String.eqb k' k0) eqn:E; simpl.
    + apply String.eqb_eq in E. subst k0. now rewrite N.
    + now rewrite IH.
Qed.

Lemma dict_get_set (k k' : string) (v : pyval) (d : dict) :
  dict_get k (dict_set k' v d) = if String.eqb k k' then Some v else dict_get k d.
Proof.
  destruct (String.eqb k k') eqn:E.
  - apply String.eqb_eq in E. subst. apply dict_get_set_same.
  - apply String.eqb_neq in E. now apply dict_get_set_other.
Qed.

Lemma dict_get_absent (k : string) (d : dict) :
  ~ In k (map fst d) -> dict_get k d = None.
Proof.
  induction d as [|[k' v'] d IH]; simpl; intros N; [reflexivity|].
  destruct (String.eqb k k') eqn:E.
  - apply String.eqb_eq in E. subst. tauto.
  - apply IH. tauto.
Qed.

(** Merging writes the second operand over the first. *)
Lemma dict_get_merge (k : string) (d m : dict) :
  dict_wf m ->
  dict_get k (dict_merge d m) =
    match dict_get k m with
    | Some v => Some v
    | None => dict_get k d
    end.
Proof.
  unfold dict_merge, dict_wf. revert d.
  induction m as [|[k' v'] m IH]; simpl; intros d W; [reflexivity|].
  inversion W as [|? ? Hk Hm]; subst.
  rewrite (IH _ Hm), dict_get_set.
  destruct (String.eqb k k') eqn:E; [|reflexivity].
  apply String.eqb_eq in E. subst k'.
  now rewrite (dict_get_absent _ _ Hk).
Qed.

(** The keys of a merge are those of its operands. *)
Lemma dict_mem_merge (k : string) (d m : dict) :
  dict_wf m ->
  dict_mem k (dict_merge d m) = dict_mem k d || dict_mem k m.
Proof.
  intros W. unfold dict_mem. rewrite (dict_get_merge _ _ _ W).
  destruct (dict_get k m), (dict_get k d); reflexivity.
Qed.

(** ** Comparison *)

Lemma py_lt_none_l (b : pyval) : py_lt PNone b = Raise TypeError.
Proof. reflexivity. Qed.

Lemma py_lt_none_r (a : pyval) : py_lt a PNone = Raise TypeError.
Proof. destruct a; reflexivity. Qed.

Lemma py_lt_int (x y : Z) : py_lt (PInt x) (PInt y) = Ok (x <? y).
Proof. reflexivity. Qed.

Lemma py_or_int (z : Z) : py_or (PInt z) (PInt 0) = PInt z.
Proof.
  unfold py_or. simpl. destruct (Z.eqb_spec z 0); simpl; congruence.
Qed.

(** ** Generators *)

Lemma and_then_finished (r k : run) :
  ends r = Finished ->
  and_then r k = mkRun (yielded r ++ yielded k) (ends k).
Proof. unfold and_then. now intros ->. Qed.

Lemma and_then_stops (r k : run) :
  ends r <> Finished -> and_then r k = r.
Proof. unfold and_then. destruct (ends r); congruence. Qed.

(** Chained generators that all run to exhaustion yield the concatenation
    of what each yields. *)
Lemma yield_from_each_finished {A : Type} (g : A -> run) (xs : list A) :
  (forall x, In x xs -> ends (g x) = Finished) ->
  yield_from_each g xs = mkRun (concat (map (fun x => yielded (g x)) xs)) Finished.
Proof.
  induction xs as [|x xs IH]; simpl; intros H; [reflexivity|].
  rewrite and_then_finished by (apply H; now left).
  rewrite IH by (intros y Hy; apply H; now right).
  reflexivity.
Qed.

(** The first generator that does not run to exhaustion ends the chain:
    nothing of the later ones is started. *)
Lemma yield_from_each_stops {A : Type} (g : A -> run) (xs ys : list A) (x : A) :
  (forall y, In y xs -> ends (g y) = Finished) ->
  ends (g x) <> Finished ->
  yield_from_each g (xs ++ x :: ys) =
    mkRun (concat (map (fun y => yielded (g y)) xs) ++ yielded (g x)) (ends (g x)).
Proof.
  induction xs as [|y xs IH]; simpl; intros H N.
  - rewrite and_then_stops by exact N. now destruct (g x).
  - rewrite and_then_finished by (apply H; now left).
    rewrite IH by (auto; intros z Hz; apply H; now right).
    simpl. now rewrite app_assoc.
Qed.

(** ** Pagination *)

Lemma get_page_info_absent (path : string) (response : pyval) :
  extract_jsonpath path response = [] ->
  TikTokStream._get_page_info path response = PNone.
Proof. unfold TikTokStream._get_page_info. now intros ->. Qed.

(** What the base variant compares: the page information, 0 when absent. *)
Lemma page_reads_or_zero (path : string) (response : pyval) (z : Z) :
  page_reads path response z ->
  py_or (TikTokStream._get_page_info path response) (PInt 0) = PInt z.
Proof.
  unfold page_reads, TikTokStream._get_page_info.
  destruct (extract_jsonpath path response) as [|v ms]; simpl.
  - now intros ->.
  - intros ->. apply py_or_int.
Qed.

(** C1. Base variant: with [current_page] read from $.data.page_info.page
    and [total_page] from $.data.page_info.total_page, an absent value
    counting as 0, the next-page token is [current_page + 1] when
    [current_page < total_page], and None otherwise. *)
Theorem base_next_page_token
        (response previous_token : pyval) (current_page total_page : Z) :
  page_reads "$.data.page_info.page" response current_page ->
  page_reads "$.data.page_info.total_page" response total_page ->
  TikTokStream.get_next_page_token response previous_token =
    Ok (if current_page <? total_page then PInt (current_page + 1) else PNone).
Proof.
  intros Hc Ht. unfold TikTokStream.get_next_page_token.
  rewrite (page_reads_or_zero _ _ _ Hc), (page_reads_or_zero _ _ _ Ht).
  rewrite py_lt_int. cbn [bind].
  destruct (current_page <? total_page); reflexivity.
Qed.

(** Page 1 of 3 gives token 2; page 3 of 3 gives no token; a body without
    page information gives no token either. *)
Lemma base_next_page_token_witness :
  (page_reads "$.data.page_info.page" (page_info_body (PInt 1) (PInt 3)) 1
   /\ page_reads "$.data.page_info.total_page" (page_info_body (PInt 1) (PInt 3)) 3
   /\ TikTokStream.get_next_page_token (page_info_body (PInt 1) (PInt 3)) PNone
      = Ok (PInt 2))
  /\ TikTokStream.get_next_page_token (page_info_body (PInt 3) (PInt 3)) (PInt 2)
     = Ok PNone
  /\ TikTokStream.get_next_page_token (PDict [("code", PInt 0)]) PNone = Ok PNone.
Proof.
  split; [|split].
  - split; [reflexivity|]. split; [reflexivity|].
    apply (base_next_page_token (page_info_body (PInt 1) (PInt 3)) PNone 1 3);
      reflexivity.
  - apply (base_next_page_token (page_info_body (PInt 3) (PInt 3)) (PInt 2) 3 3);
      reflexivity.
  - apply (base_next_page_token (PDict [("code", PInt 0)]) PNone 0 0); reflexivity.
Defined.

(** The comparison of the report variant is on the raw matches: None on
    either side raises. *)
Lemma report_next_page_token_none (response previous_token : pyval) :
  next_or_none (extract_jsonpath "$.data.page_info.page" response) = PNone
  \/ next_or_none (extract_jsonpath "$.data.page_info.total_page" response) = PNone ->
  TikTokReportsStream.get_next_page_token response previous_token = Raise TypeError.
Proof.
  unfold TikTokReportsStream.get_next_page_token.
  intros [H | H]; rewrite H.
  - now rewrite py_lt_none_l.
  - now rewrite py_lt_none_r.
Qed.

(** C5. Report variant: when $.data.page_info.page or
    $.data.page_info.total_page is absent from the response, the comparison
    is made on None and raises TypeError; no token is returned and
    pagination does not end normally. *)
Theorem report_next_page_token_absent (response previous_token : pyval) :
  extract_jsonpath "$.data.page_info.page" response = []
  \/ extract_jsonpath "$.data.page_info.total_page" response = [] ->
  TikTokReportsStream.get_next_page_token response previous_token = Raise TypeError.
Proof.
  intros H. apply report_next_page_token_none.
  destruct H as [H | H]; rewrite H; [left | right]; reflexivity.
Qed.

(** A report body without total_page, and one without page information:
    both raise, where the base variant ends pagination. *)
Lemma report_next_page_token_absent_witness :
  (extract_jsonpath "$.data.page_info.page"
     (PDict [("data", PDict [("page_info", PDict [("page", PInt 1)])])]) = []
   \/ extract_jsonpath "$.data.page_info.total_page"
        (PDict [("data", PDict [("page_info", PDict [("page", PInt 1)])])]) = [])
  /\ TikTokReportsStream.get_next_page_token
       (PDict [("data", PDict [("page_info", PDict [("page", PInt 1)])])]) PNone
     = Raise TypeError
  /\ TikTokReportsStream.get_next_page_token (PDict [("code", PInt 0)]) PNone
     = Raise TypeError
  /\ TikTokStream.get_next_page_token (PDict [("code", PInt 0)]) PNone = Ok PNone.
Proof.
  split; [right; reflexivity|]. split; [|split].
  - apply report_next_page_token_absent. right. reflexivity.
  - apply report_next_page_token_absent. left. reflexivity.
  - reflexivity.
Defined.

(** ** Tenant resolution *)

Lemma kept_spec (x : pyval) :
  kept x = true <-> x <> PNone /\ all_space (py_str x) = false.
Proof.
  unfold kept. rewrite andb_true_iff, !negb_true_iff, blank_all_space.
  destruct x; simpl; intuition congruence.
Qed.

Lemma no_id_list_test (config : dict) :
  no_id_list config ->
  is_list (dict_get_or_none "advertiser_ids" config)
  && truthy (dict_get_or_none "advertiser_ids" config) = false.
Proof.
  unfold no_id_list, dict_get_or_none. intros H.
  destruct (dict_get "advertiser_ids" config) as [[| | | |l|]|]; try reflexivity.
  now rewrite (H l eq_refl).
Qed.

(** C2. With a non-empty list under [advertiser_ids], the resolver returns
    the string forms of its non-null, non-blank elements, in order; without
    one, and with a non-blank [advertiser_id], it returns the one-element
    list of its string form. *)
Theorem configured_ids_resolved (config : dict) (ids : list string) :
  resolves config ids ->
  TikTokStream._configured_advertiser_ids config = Ok ids.
Proof.
  intros [l Hl Hne | v Hno Hv Hk]; unfold TikTokStream._configured_advertiser_ids.
  - unfold dict_get_or_none. rewrite Hl.
    destruct l as [|x l]; [congruence|]. reflexivity.
  - rewrite (no_id_list_test _ Hno).
    unfold dict_get_or_none at 1 2 3. rewrite Hv.
    change (negb (is_none v) && truthy (PStr (strip (py_str v)))) with (kept v).
    now rewrite Hk.
Qed.

(** A list with a null and a blank entry among the identifiers, which may be
    numbers; and a configuration with the scalar key only. *)
Lemma configured_ids_resolved_witness :
  TikTokStream._configured_advertiser_ids
    [("advertiser_ids", PList [PStr "B"; PNone; PInt 7; PStr " "; PStr "A"]);
     ("advertiser_id", PStr "C")]
  = Ok ["B"; "7"; "A"]
  /\ TikTokStream._configured_advertiser_ids
       [("advertiser_ids", PList []); ("advertiser_id", PInt 42)]
     = Ok ["42"].
Proof.
  split.
  - apply (configured_ids_resolved
             [("advertiser_ids", PList [PStr "B"; PNone; PInt 7; PStr " "; PStr "A"]);
              ("advertiser_id", PStr "C")]).
    apply (resolves_list _ [PStr "B"; PNone; PInt 7; PStr " "; PStr "A"]).
    + reflexivity.
    + discriminate.
  - apply (configured_ids_resolved
             [("advertiser_ids", PList []); ("advertiser_id", PInt 42)]).
    apply (resolves_scalar _ (PInt 42)).
    + intros l H. injection H as <-. reflexivity.
    + reflexivity.
    + reflexivity.
Defined.

(** C3. With neither a non-empty list [advertiser_ids] nor a non-blank
    [advertiser_id], resolution raises the error that no identifier is
    configured, with its message; record iteration raises it at its start,
    before any request and any record. *)
Theorem unconfigured_raises (config : dict) :
  unconfigured config ->
  TikTokStream._configured_advertiser_ids config
  = Raise (RuntimeError TikTokStream.missing_ids)
  /\ forall (super_get_records : dict -> run) (context : option dict),
      TikTokStream.get_records config super_get_records context
      = mkRun [] (Raised (RuntimeError TikTokStream.missing_ids)).
Proof.
  intros [Hno Hid].
  assert (E : TikTokStream._configured_advertiser_ids config
              = Raise (RuntimeError TikTokStream.missing_ids)).
  { unfold TikTokStream._configured_advertiser_ids.
    rewrite (no_id_list_test _ Hno).
    change (negb (is_none (dict_get_or_none "advertiser_id" config))
            && truthy (PStr (strip (py_str (dict_get_or_none "advertiser_id" config)))))
      with (kept (dict_get_or_none "advertiser_id" config)).
    unfold dict_get_or_none.
    destruct (dict_get "advertiser_id" config) as [v|] eqn:Hv.
    - now rewrite (Hid v eq_refl).
    - reflexivity. }
  split; [exact E|].
  intros super_get_records context.
  unfold TikTokStream.get_records. now rewrite E.
Qed.

(** An empty configuration, and one with an empty list and a blank scalar. *)
Lemma unconfigured_raises_witness :
  unconfigured [("access_token", PStr "secret")]
  /\ TikTokStream.get_records [("access_token", PStr "secret")]
       (fun _ => yield PNone) None
     = mkRun [] (Raised (RuntimeError TikTokStream.missing_ids))
  /\ TikTokStream._configured_advertiser_ids
       [("advertiser_ids", PList []); ("advertiser_id", PStr " ")]
     = Raise (RuntimeError TikTokStream.missing_ids).
Proof.
  assert (U : unconfigured [("access_token", PStr "secret")]).
  { split; intros x H; discriminate H. }
  split; [exact U|]. split.
  - apply (proj2 (unconfigured_raises [("access_token", PStr "secret")] U)).
  - refine (proj1 (unconfigured_raises
                     [("advertiser_ids", PList []); ("advertiser_id", PStr " ")] _)).
    split.
    + intros l H. injection H as <-. reflexivity.
    + intros v H. injection H as <-. reflexivity.
Defined.

(** Every configuration either resolves or is unconfigured. *)
Lemma resolves_or_unconfigured (config : dict) :
  (exists ids, resolves config ids) \/ unconfigured config.
Proof.
  assert (L : (exists x l, dict_get "advertiser_ids" config = Some (PList (x :: l)))
              \/ no_id_list config).
  { unfold no_id_list.
    destruct (dict_get "advertiser_ids" config) as [[| | | |[|x l]|]|];
      try (right; intros l' H; congruence).
    left. now exists x, l. }
  destruct L as [(x & l & Hl) | Hno].
  - left. eexists. apply (resolves_list _ _ Hl). discriminate.
  - destruct (dict_get "advertiser_id" config) as [v|] eqn:Hv.
    + destruct (kept v) eqn:Hk.
      * left. eexists. apply (resolves_scalar _ _ Hno Hv Hk).
      * right. split; [exact Hno|]. intros v' H. congruence.
    + right. split; [exact Hno|]. intros v' H. congruence.
Qed.

Lemma id_list_cases (config : dict) :
  (exists x l, dict_get "advertiser_ids" config = Some (PList (x :: l)))
  \/ no_id_list config.
Proof.
  unfold no_id_list.
  destruct (dict_get "advertiser_ids" config) as [[| | | |[|x l]|]|];
    try (right; intros l' H; congruence).
  left. now exists x, l.
Qed.

(** The outcome of the resolver, by the two kinds of configuration. *)
Lemma resolver_cases (config : dict) :
  (exists ids, resolves config ids
               /\ TikTokStream._configured_advertiser_ids config = Ok ids)
  \/ (unconfigured config
      /\ TikTokStream._configured_advertiser_ids config
         = Raise (RuntimeError TikTokStream.missing_ids)).
Proof.
  destruct (id_list_cases config) as [(x & l & Hl) | Hno].
  - left. eexists. split.
    + apply (resolves_list _ _ Hl). discriminate.
    + unfold TikTokStream._configured_advertiser_ids, dict_get_or_none.
      rewrite Hl. reflexivity.
  - unfold TikTokStream._configured_advertiser_ids.
    rewrite (no_id_list_test _ Hno).
    change (negb (is_none (dict_get_or_none "advertiser_id" config))
            && truthy (PStr (strip (py_str (dict_get_or_none "advertiser_id" config)))))
      with (kept (dict_get_or_none "advertiser_id" config)).
    unfold dict_get_or_none.
    destruct (dict_get "advertiser_id" config) as [v|] eqn:Hv;
      [destruct (kept v) eqn:Hk|].
    + left. eexists. split; [apply (resolves_scalar _ _ Hno Hv Hk) | reflexivity].
    + right. split; [split; [exact Hno | intros v' H; congruence] | reflexivity].
    + right. split; [split; [exact Hno | intros v' H; congruence] | reflexivity].
Qed.

(** The resolver returns exactly what the configuration resolves to. *)
Lemma configured_ids_inv (config : dict) (ids : list string) :
  TikTokStream._configured_advertiser_ids config = Ok ids -> resolves config ids.
Proof.
  intros H. destruct (resolver_cases config) as [(ids' & R & E) | [U E]].
  - rewrite E in H. now injection H as <-.
  - rewrite E in H. discriminate.
Qed.

(** No identifier the resolver returns is blank. *)
Lemma configured_ids_nonblank (config : dict) (ids : list string) :
  TikTokStream._configured_advertiser_ids config = Ok ids ->
  Forall (fun a => blank a = false) ids.
Proof.
  intros H. apply configured_ids_inv in H.
  destruct H as [l _ _ | v _ _ Hk].
  - induction l as [|x l IH]; simpl; [constructor|].
    destruct (kept x) eqn:Hk; [|exact IH].
    simpl. constructor; [|exact IH].
    unfold kept in Hk. apply andb_true_iff in Hk.
    now apply negb_true_iff.
  - constructor; [|constructor].
    unfold kept in Hk. apply andb_true_iff in Hk.
    now apply negb_true_iff.
Qed.

(** X14. The resolver returns no identifier exactly for a non-empty list
    none of whose elements is kept, that is, all of them null or blank. *)
Lemma configured_ids_empty (config : dict) :
  TikTokStream._configured_advertiser_ids config = Ok [] <->
  exists x l, dict_get "advertiser_ids" config = Some (PList (x :: l))
              /\ forallb (fun y => negb (kept y)) (x :: l) = true.
Proof.
  split.
  - intros H. apply configured_ids_inv in H.
    inversion H as [l Hl Hne E | ].
    destruct l as [|x l]; [congruence|]. exists x, l. split; [exact Hl|].
    clear - E. revert E. generalize (x :: l). intros m.
    induction m as [|y m IH]; simpl; [reflexivity|].
    destruct (kept y); simpl; [discriminate|exact IH].
  - intros (x & l & Hl & Hall).
    unfold TikTokStream._configured_advertiser_ids, dict_get_or_none.
    rewrite Hl.
    change (Ok (map py_str (filter kept (x :: l))) = Ok []).
    f_equal. revert Hall. generalize (x :: l). intros m.
    induction m as [|y m IH]; simpl; [reflexivity|].
    destruct (kept y); simpl; [discriminate|exact IH].
Qed.

(** C4. A list [advertiser_ids] whose entries are all null or blank
    resolves to no identifier without any error: the stream starts, calls
    no fetch cycle and ends without a record, and the fallback on the first
    configured identifier finds none. *)
Theorem blank_ids_resolve_to_nothing :
  TikTokStream._configured_advertiser_ids blank_ids = Ok []
  /\ (forall (super_get_records : dict -> run) (context : option dict),
         TikTokStream.get_records blank_ids super_get_records context
         = mkRun [] Finished)
  /\ TikTokStream._resolve_advertiser_id blank_ids None = Raise IndexError.
Proof.
  split; [reflexivity|]. split; [|reflexivity].
  intros super_get_records context. reflexivity.
Qed.

(** ** Record iteration over the tenants *)

Lemma get_records_unfold (config : dict) (super_get_records : dict -> run)
      (context : option dict) (ids : list string) :
  TikTokStream._configured_advertiser_ids config = Ok ids ->
  TikTokStream.get_records config super_get_records context =
    yield_from_each (fun a => super_get_records (tenant_context context a)) ids.
Proof. unfold TikTokStream.get_records. now intros ->. Qed.

(** C6. Record iteration yields the concatenation, in the order of the
    resolver, of the records of the fetch cycle of every tenant, each run to
    exhaustion with the tenant's identifier in its context; nothing is
    dropped or merged. *)
Theorem get_records_concat (config : dict) (super_get_records : dict -> run)
        (context : option dict) (ids : list string) :
  TikTokStream._configured_advertiser_ids config = Ok ids ->
  (forall a, In a ids ->
             ends (super_get_records (tenant_context context a)) = Finished) ->
  TikTokStream.get_records config super_get_records context =
    mkRun (concat (map (fun a => yielded (super_get_records (tenant_context context a)))
                       ids))
          Finished.
Proof.
  intros Hids Hfin. rewrite (get_records_unfold _ _ _ _ Hids).
  now apply yield_from_each_finished.
Qed.

(** X9. A tenant whose fetch cycle raises ends the iteration there: the
    records up to the failure are yielded and no later tenant is fetched. *)
Lemma get_records_stops (config : dict) (super_get_records : dict -> run)
      (context : option dict) (before after : list string) (a : string) :
  TikTokStream._configured_advertiser_ids config = Ok (before ++ a :: after)%list ->
  (forall b, In b before ->
             ends (super_get_records (tenant_context context b)) = Finished) ->
  ends (super_get_records (tenant_context context a)) <> Finished ->
  TikTokStream.get_records config super_get_records context =
    mkRun (concat (map (fun b => yielded (super_get_records (tenant_context context b)))
                       before)
           ++ yielded (super_get_records (tenant_context context a)))%list
          (ends (super_get_records (tenant_context context a))).
Proof.
  intros Hids Hfin Hstop. rewrite (get_records_unfold _ _ _ _ Hids).
  now apply (yield_from_each_stops
               (fun b => super_get_records (tenant_context context b))).
Qed.

(** The number of records is the sum over the tenants. *)
Lemma get_records_count (config : dict) (super_get_records : dict -> run)
      (context : option dict) (ids : list string) :
  TikTokStream._configured_advertiser_ids config = Ok ids ->
  (forall a, In a ids ->
             ends (super_get_records (tenant_context context a)) = Finished) ->
  length (yielded (TikTokStream.get_records config super_get_records context)) =
    list_sum (map (fun a => length (yielded (super_get_records (tenant_context context a))))
                  ids).
Proof.
  intros Hids Hfin. rewrite (get_records_unfold _ _ _ _ Hids).
  rewrite yield_from_each_finished by exact Hfin. simpl.
  clear. induction ids as [|a ids IH]; simpl; [reflexivity|].
  now rewrite length_app, IH.
Qed.

(** Two tenants A and B, two pages of one record each: four records, A's
    pages first. *)
Lemma get_records_concat_witness :
  TikTokStream._configured_advertiser_ids two_tenants = Ok ["A"; "B"]
  /\ base_stream two_tenants two_pages 5 None =
     mkRun [PDict [("name", PStr "A-page1")]; PDict [("name", PStr "A-page2")];
            PDict [("name", PStr "B-page1")]; PDict [("name", PStr "B-page2")]]
           Finished.
Proof.
  split; [reflexivity|].
  apply (get_records_concat two_tenants
           (fun local_ctx =>
              RESTStream.get_records
                (TikTokStream.get_url_params two_tenants)
                (TikTokStream.http_headers two_tenants)
                TikTokStream.get_next_page_token
                RESTStream.post_process
                TikTokStream.records_jsonpath
                two_pages 5 (Some local_ctx))
           None ["A"; "B"]).
  - reflexivity.
  - intros a [<- | [<- | []]]; reflexivity.
Defined.

(** ** Request parameters *)

(** The tenant [get_url_params] sends is [tenant_of]. *)
Lemma resolve_advertiser_id_tenant (config : dict) (context : option dict) :
  TikTokStream._resolve_advertiser_id config context = tenant_of config context.
Proof.
  unfold TikTokStream._resolve_advertiser_id, tenant_of, dict_item, dict_get_or_none.
  destruct (or_empty context) as [|kv d] eqn:E; [reflexivity|].
  cbn [truthy andb].
  destruct (dict_get "advertiser_id" (kv :: d)) as [v|]; [|reflexivity].
  destruct (truthy v); reflexivity.
Qed.

Lemma get_url_params_unfold (config : dict) (context : option dict)
      (next_page_token : pyval) (a : string) :
  tenant_of config context = Ok a ->
  TikTokStream.get_url_params config context next_page_token =
    Ok (dict_set "page_size" (PInt 10)
          (dict_set "filtering"
             (PStr (json_dumps
                      (status_filter
                         (if truthy (dict_get_or_none "include_deleted" config)
                          then "STATUS_ALL" else "STATUS_NOT_DELETE"))))
             (if truthy next_page_token
              then dict_set "page" next_page_token [("advertiser_id", PStr a)]
              else [("advertiser_id", PStr a)]))).
Proof.
  intros H. unfold TikTokStream.get_url_params.
  rewrite resolve_advertiser_id_tenant, H. reflexivity.
Qed.

(** The parameters by the truth tests of the code, for any context and
    token: the tenant is [tenant_of], and [page] is there for a truthy token
    only. *)
Lemma url_params_by_truth (config : dict) (context : option dict)
      (next_page_token : pyval) (a : string) :
  tenant_of config context = Ok a ->
  exists params,
    TikTokStream.get_url_params config context next_page_token = Ok params
    /\ dict_get "advertiser_id" params = Some (PStr a)
    /\ dict_get "page" params
       = (if truthy next_page_token then Some next_page_token else None)
    /\ dict_get "page_size" params = Some (PInt 10).
Proof.
  intros H. eexists. split; [apply (get_url_params_unfold _ _ _ _ H)|].
  destruct (truthy next_page_token); repeat split; reflexivity.
Qed.

(** On a request context, the tenant by presence is the tenant the code
    takes. *)
Lemma tenant_by_presence (config : dict) (context : option dict) (a : string) :
  request_context context ->
  advertiser_by_presence config context a ->
  tenant_of config context = Ok a.
Proof.
  unfold request_context, advertiser_by_presence, context_id, tenant_of,
    dict_get_or_none.
  intros Hc Ha.
  destruct (dict_get "advertiser_id" (or_empty context)) as [v|].
  - destruct (Hc v eq_refl) as [-> | Ht].
    + destruct Ha as (ids & -> & F). exact F.
    + rewrite Ht. destruct v; try (now rewrite Ha). discriminate Ht.
  - destruct Ha as (ids & -> & F). exact F.
Qed.

(** On a token of the fetch cycle, presence and truth agree. *)
Lemma page_token_truthy (next_page_token : pyval) :
  page_token next_page_token ->
  truthy next_page_token = negb (is_none next_page_token).
Proof.
  intros [-> | H]; [reflexivity|]. rewrite H. now destruct next_page_token.
Qed.

(** C7. For every request context and next-page token, [get_url_params]
    returns a mapping whose advertiser_id is the string form of the
    context's advertiser_id when there is one and the first resolved
    identifier otherwise, which has no [page] when the token is absent and
    has the token as [page] otherwise, and whose page_size is 10. *)
Theorem url_params_by_presence (config : dict) (context : option dict)
        (next_page_token : pyval) (a : string) :
  request_context context ->
  page_token next_page_token ->
  advertiser_by_presence config context a ->
  exists params,
    TikTokStream.get_url_params config context next_page_token = Ok params
    /\ dict_get "advertiser_id" params = Some (PStr a)
    /\ page_by_presence next_page_token params
    /\ dict_get "page_size" params = Some (PInt 10).
Proof.
  intros Hc Ht Ha.
  pose proof (tenant_by_presence _ _ _ Hc Ha) as T.
  eexists. split; [apply (get_url_params_unfold _ _ _ _ T)|].
  unfold page_by_presence.
  rewrite (page_token_truthy _ Ht).
  destruct (is_none next_page_token); repeat split; reflexivity.
Qed.

(** The second request of tenant B, with its context, and a first request
    without a context. *)
Lemma url_params_by_presence_witness :
  (request_context (Some [("advertiser_id", PStr "B")])
   /\ page_token (PInt 2)
   /\ advertiser_by_presence two_tenants (Some [("advertiser_id", PStr "B")]) "B")
  /\ (exists params,
         TikTokStream.get_url_params two_tenants
           (Some [("advertiser_id", PStr "B")]) (PInt 2) = Ok params
         /\ dict_get "advertiser_id" params = Some (PStr "B")
         /\ dict_get "page" params = Some (PInt 2)
         /\ dict_get "page_size" params = Some (PInt 10))
  /\ (exists params,
         TikTokStream.get_url_params two_tenants None PNone = Ok params
         /\ dict_get "advertiser_id" params = Some (PStr "A")
         /\ dict_get "page" params = None
         /\ dict_get "page_size" params = Some (PInt 10)).
Proof.
  assert (C : request_context (Some [("advertiser_id", PStr "B")])).
  { intros v H. injection H as <-. right. reflexivity. }
  assert (A : advertiser_by_presence two_tenants
                (Some [("advertiser_id", PStr "B")]) "B") by reflexivity.
  split; [split; [exact C | split; [right; reflexivity | exact A]]|].
  split.
  - apply (url_params_by_presence two_tenants (Some [("advertiser_id", PStr "B")])
             (PInt 2) "B" C (or_intror eq_refl) A).
  - apply (url_params_by_presence two_tenants None PNone "A").
    + intros v H. discriminate H.
    + left. reflexivity.
    + exists ["A"; "B"]. split; reflexivity.
Defined.

(** The text of the two filters. *)
Lemma status_filter_text :
  json_dumps (status_filter "STATUS_ALL")
  = "{" ++ quoted "primary_status" ++ ": " ++ quoted "STATUS_ALL" ++ "}"
  /\ json_dumps (status_filter "STATUS_NOT_DELETE")
     = "{" ++ quoted "primary_status" ++ ": " ++ quoted "STATUS_NOT_DELETE" ++ "}".
Proof. split; reflexivity. Qed.

(** C8. The [filtering] parameter is the JSON text of
    [{primary_status: STATUS_ALL}] when [include_deleted] is truthy in the
    configuration and of [{primary_status: STATUS_NOT_DELETE}] otherwise,
    so also when the flag is absent. *)
Theorem url_params_filtering (config : dict) (context : option dict)
        (next_page_token : pyval) (a : string) :
  tenant_of config context = Ok a ->
  exists params,
    TikTokStream.get_url_params config context next_page_token = Ok params
    /\ dict_get "filtering" params
       = Some (PStr (json_dumps
                       (status_filter
                          (if truthy (dict_get_or_none "include_deleted" config)
                           then "STATUS_ALL" else "STATUS_NOT_DELETE"))))
    /\ (dict_get "include_deleted" config = None ->
        dict_get "filtering" params
        = Some (PStr (json_dumps (status_filter "STATUS_NOT_DELETE")))).
Proof.
  intros H. eexists. split; [apply (get_url_params_unfold _ _ _ _ H)|].
  split.
  - destruct (truthy next_page_token); reflexivity.
  - intros N. unfold dict_get_or_none. rewrite N.
    destruct (truthy next_page_token); reflexivity.
Qed.

(** With the flag set, and without it. *)
Lemma url_params_filtering_witness :
  tenant_of (("include_deleted", PBool true) :: two_tenants) None = Ok "A"
  /\ (exists params,
         TikTokStream.get_url_params (("include_deleted", PBool true) :: two_tenants)
           None PNone = Ok params
         /\ dict_get "filtering" params
            = Some (PStr ("{" ++ quoted "primary_status" ++ ": "
                              ++ quoted "STATUS_ALL" ++ "}")))
  /\ (exists params,
         TikTokStream.get_url_params two_tenants None PNone = Ok params
         /\ dict_get "filtering" params
            = Some (PStr ("{" ++ quoted "primary_status" ++ ": "
                              ++ quoted "STATUS_NOT_DELETE" ++ "}"))).
Proof.
  split; [reflexivity|]. split.
  - destruct (url_params_filtering (("include_deleted", PBool true) :: two_tenants)
                None PNone "A" eq_refl) as (params & E & F & _).
    exists params. split; [exact E | exact F].
  - destruct (url_params_filtering two_tenants None PNone "A" eq_refl)
      as (params & E & _ & F).
    exists params. split; [exact E | exact (F eq_refl)].
Defined.

(** ** Headers *)

Lemma http_headers_unfold (config : dict) (token : pyval) :
  dict_get "access_token" config = Some token ->
  TikTokStream.http_headers config =
    Ok (dict_set "Access-Token" (PStr (py_str token))
          (dict_set "Content-Type" (PStr "application/json")
             (if dict_mem "user_agent" config
              then [("User-Agent", dict_get_or_none "user_agent" config)]
              else []))).
Proof.
  intros H. unfold TikTokStream.http_headers, dict_item. rewrite H.
  destruct (dict_mem "user_agent" config); reflexivity.
Qed.

(** Without an access token no header is computed. *)
Lemma http_headers_no_token (config : dict) :
  dict_get "access_token" config = None ->
  TikTokStream.http_headers config = Raise (KeyError "access_token").
Proof.
  intros H. unfold TikTokStream.http_headers, dict_item. now rewrite H.
Qed.

(** C9. The headers hold [Content-Type: application/json], [Access-Token]
    with the string form of the configured access token, and [User-Agent]
    with the configured user agent exactly when the configuration has one;
    without one the key is not there. *)
Theorem http_headers_content (config : dict) (token : pyval) :
  dict_get "access_token" config = Some token ->
  exists headers,
    TikTokStream.http_headers config = Ok headers
    /\ dict_get "Content-Type" headers = Some (PStr "application/json")
    /\ dict_get "Access-Token" headers = Some (PStr (py_str token))
    /\ dict_get "User-Agent" headers = dict_get "user_agent" config.
Proof.
  intros H. eexists. split; [apply (http_headers_unfold _ _ H)|].
  unfold dict_mem, dict_get_or_none.
  destruct (dict_get "user_agent" config); repeat split; reflexivity.
Qed.

(** A numeric token with a user agent, and a configuration without one. *)
Lemma http_headers_content_witness :
  dict_get "access_token" [("user_agent", PStr "tap"); ("access_token", PInt 17)]
  = Some (PInt 17)
  /\ TikTokStream.http_headers [("user_agent", PStr "tap"); ("access_token", PInt 17)]
     = Ok [("User-Agent", PStr "tap"); ("Content-Type", PStr "application/json");
           ("Access-Token", PStr "17")]
  /\ (exists headers,
         TikTokStream.http_headers two_tenants = Ok headers
         /\ dict_get "Content-Type" headers = Some (PStr "application/json")
         /\ dict_get "Access-Token" headers = Some (PStr "secret")
         /\ dict_get "User-Agent" headers = None).
Proof.
  split; [reflexivity|]. split; [reflexivity|].
  apply (http_headers_content two_tenants (PStr "secret")). reflexivity.
Defined.

(** ** Report rows *)

(** C10. A row with the sub-mappings [dimensions] and [metrics] is
    post-processed into the one mapping that merges them: a key has the
    value [metrics] gives it, and otherwise the value [dimensions] gives
    it. *)
Theorem post_process_merges (r d m : dict) (context : option dict) :
  dict_get "dimensions" r = Some (PDict d) ->
  dict_get "metrics" r = Some (PDict m) ->
  dict_wf m ->
  exists flat,
    TikTokReportsStream.post_process (PDict r) context = Ok (PDict flat)
    /\ forall k, dict_get k flat =
                 match dict_get k m with
                 | Some v => Some v
                 | None => dict_get k d
                 end.
Proof.
  intros Hd Hm W. exists (dict_merge d m). split.
  - unfold TikTokReportsStream.post_process, dict_item.
    rewrite Hd. cbn [bind]. rewrite Hm. reflexivity.
  - intros k. now apply dict_get_merge.
Qed.

(** A row with one dimension and one metric, and a row where both
    sub-mappings have the key [date]. *)
Lemma post_process_merges_witness :
  dict_wf [("clicks", PInt 5)]
  /\ TikTokReportsStream.post_process report_row None
     = Ok (PDict [("date", PStr "2024-01-01"); ("clicks", PInt 5)])
  /\ (exists flat,
         TikTokReportsStream.post_process report_row None = Ok (PDict flat)
         /\ forall k, dict_get k flat =
                      match dict_get k [("clicks", PInt 5)] with
                      | Some v => Some v
                      | None => dict_get k [("date", PStr "2024-01-01")]
                      end)
  /\ TikTokReportsStream.post_process
       (PDict [("dimensions", PDict [("date", PStr "2024-01-01"); ("country", PStr "NL")]);
               ("metrics", PDict [("clicks", PInt 5); ("date", PStr "2024-02-02")])])
       None
     = Ok (PDict [("date", PStr "2024-02-02"); ("country", PStr "NL");
                  ("clicks", PInt 5)]).
Proof.
  assert (W : dict_wf [("clicks", PInt 5)]).
  { unfold dict_wf. simpl. constructor; [intros []|constructor]. }
  split; [exact W|]. split; [reflexivity|]. split; [|reflexivity].
  apply (post_process_merges
           [("dimensions", PDict [("date", PStr "2024-01-01")]);
            ("metrics", PDict [("clicks", PInt 5)])]
           [("date", PStr "2024-01-01")] [("clicks", PInt 5)] None);
    [reflexivity | reflexivity | exact W].
Defined.

(** * Further properties of the client *)

(** ** The tenant of a request *)

Lemma blank_empty : blank "" = true.
Proof. reflexivity. Qed.

Lemma nonblank_truthy (a : string) : blank a = false -> truthy (PStr a) = true.
Proof.
  intros H. destruct a as [|c a]; [discriminate H | reflexivity].
Qed.

(** X1. A context with a truthy advertiser_id decides the tenant by itself:
    [_resolve_advertiser_id] returns its string form and does not look at
    the configuration, which may even hold no identifier. *)
Theorem resolve_prefers_context (config : dict) (context : option dict) (v : pyval) :
  dict_get "advertiser_id" (or_empty context) = Some v ->
  truthy v = true ->
  TikTokStream._resolve_advertiser_id config context = Ok (py_str v).
Proof.
  intros Hv Ht. rewrite resolve_advertiser_id_tenant.
  unfold tenant_of, dict_get_or_none. now rewrite Hv, Ht.
Qed.

Lemma resolve_prefers_context_witness :
  TikTokStream._configured_advertiser_ids [] = Raise (RuntimeError TikTokStream.missing_ids)
  /\ TikTokStream._resolve_advertiser_id [] (Some [("advertiser_id", PInt 7)]) = Ok "7".
Proof.
  split; [reflexivity|].
  apply (resolve_prefers_context [] (Some [("advertiser_id", PInt 7)]) (PInt 7));
    reflexivity.
Defined.

(** X2. Inside record iteration the fallback never triggers: in the context
    [get_records] builds for a resolved identifier, [_resolve_advertiser_id]
    returns that identifier, and [get_url_params] returns parameters whose
    advertiser_id is that identifier, whatever the caller's context held. *)
Theorem resolve_in_tenant_context (config : dict) (context : option dict)
        (ids : list string) (a : string) (next_page_token : pyval) :
  TikTokStream._configured_advertiser_ids config = Ok ids ->
  In a ids ->
  TikTokStream._resolve_advertiser_id config
    (Some (dict_set "advertiser_id" (PStr a) (or_empty context))) = Ok a
  /\ exists params,
      TikTokStream.get_url_params config
        (Some (dict_set "advertiser_id" (PStr a) (or_empty context)))
        next_page_token = Ok params
      /\ dict_get "advertiser_id" params = Some (PStr a).
Proof.
  intros Hids Hin.
  assert (Hb : blank a = false).
  { pose proof (configured_ids_nonblank _ _ Hids) as F.
    rewrite Forall_forall in F. now apply F. }
  assert (T : tenant_of config
                (Some (dict_set "advertiser_id" (PStr a) (or_empty context))) = Ok a).
  { unfold tenant_of, dict_get_or_none. cbn [or_empty].
    rewrite dict_get_set_same, (nonblank_truthy _ Hb). reflexivity. }
  split.
  - now rewrite resolve_advertiser_id_tenant.
  - eexists. split; [apply (get_url_params_unfold _ _ _ _ T)|].
    destruct (truthy next_page_token); reflexivity.
Qed.

Lemma resolve_in_tenant_context_witness :
  TikTokStream._resolve_advertiser_id two_tenants
    (Some (dict_set "advertiser_id" (PStr "B")
                    [("parent", PInt 1); ("advertiser_id", PStr "Z")])) = Ok "B".
Proof.
  apply (proj1 (resolve_in_tenant_context two_tenants
                 (Some [("parent", PInt 1); ("advertiser_id", PStr "Z")])
                 ["A"; "B"] "B" PNone eq_refl (or_intror (or_introl eq_refl)))).
Defined.

(** X3. Without a truthy advertiser_id in the context, the tenant is the
    first identifier of the resolver, and it is not blank. *)
Theorem resolve_fallback (config : dict) (context : option dict) (a : string) :
  truthy (dict_get_or_none "advertiser_id" (or_empty context)) = false ->
  TikTokStream._resolve_advertiser_id config context = Ok a ->
  blank a = false
  /\ exists rest, TikTokStream._configured_advertiser_ids config = Ok (a :: rest).
Proof.
  intros Hf. rewrite resolve_advertiser_id_tenant. unfold tenant_of. rewrite Hf.
  destruct (TikTokStream._configured_advertiser_ids config) as [ids|e] eqn:E;
    [|discriminate].
  destruct ids as [|b rest]; [discriminate|].
  cbn [bind first]. intros H. injection H as ->. split.
  - pose proof (configured_ids_nonblank _ _ E) as F. now inversion F.
  - now exists rest.
Qed.

Lemma resolve_fallback_witness :
  TikTokStream._resolve_advertiser_id two_tenants (Some [("advertiser_id", PStr "")])
  = Ok "A"
  /\ blank "A" = false
  /\ exists rest, TikTokStream._configured_advertiser_ids two_tenants = Ok ("A" :: rest).
Proof.
  split; [reflexivity|].
  apply (resolve_fallback two_tenants (Some [("advertiser_id", PStr "")]) "A");
    reflexivity.
Defined.

(** X4. [get_url_params] fails only for want of a tenant: the context then
    has no truthy advertiser_id, and the error is either the resolver's own,
    for a configuration without identifiers, or IndexError, for a list of
    identifiers that are all null or blank. *)
Theorem url_params_failure (config : dict) (context : option dict)
        (next_page_token : pyval) (e : exn) :
  TikTokStream.get_url_params config context next_page_token = Raise e ->
  truthy (dict_get_or_none "advertiser_id" (or_empty context)) = false
  /\ ((e = RuntimeError TikTokStream.missing_ids /\ unconfigured config)
      \/ (e = IndexError /\ TikTokStream._configured_advertiser_ids config = Ok [])).
Proof.
  unfold TikTokStream.get_url_params. rewrite resolve_advertiser_id_tenant.
  unfold tenant_of.
  destruct (truthy (dict_get_or_none "advertiser_id" (or_empty context)));
    [discriminate|].
  intros H. split; [reflexivity|].
  destruct (TikTokStream._configured_advertiser_ids config) as [ids|e'] eqn:E.
  - destruct ids as [|b rest]; [|discriminate H].
    right. cbn in H. injection H as <-. now split.
  - left. cbn in H. injection H as <-.
    destruct (resolver_cases config) as [(ids & R & E') | [U E']].
    + rewrite E' in E. discriminate.
    + rewrite E' in E. injection E as <-. now split.
Qed.

Lemma url_params_failure_witness :
  truthy (dict_get_or_none "advertiser_id" (or_empty None)) = false
  /\ ((IndexError = RuntimeError TikTokStream.missing_ids /\ unconfigured blank_ids)
      \/ (IndexError = IndexError
          /\ TikTokStream._configured_advertiser_ids blank_ids = Ok [])).
Proof.
  apply (url_params_failure blank_ids None PNone IndexError). reflexivity.
Defined.

(** X5. The request parameters have the keys advertiser_id, page (for a
    truthy token only), filtering and page_size, in this order, and no
    other: nothing else of the context or of the configuration is sent. *)
Theorem url_params_keys (config : dict) (context : option dict)
        (next_page_token : pyval) (params : dict) :
  TikTokStream.get_url_params config context next_page_token = Ok params ->
  map fst params =
    if truthy next_page_token
    then ["advertiser_id"; "page"; "filtering"; "page_size"]
    else ["advertiser_id"; "filtering"; "page_size"].
Proof.
  destruct (tenant_of config context) as [a|e] eqn:T.
  - rewrite (get_url_params_unfold _ _ _ _ T). intros H. injection H as <-.
    destruct (truthy next_page_token); reflexivity.
  - unfold TikTokStream.get_url_params.
    rewrite resolve_advertiser_id_tenant, T. discriminate.
Qed.

Lemma url_params_keys_witness :
  TikTokStream.get_url_params (("include_deleted", PInt 1) :: two_tenants)
    (Some [("parent", PStr "p"); ("advertiser_id", PStr "B")]) (PInt 3)
  = Ok [("advertiser_id", PStr "B"); ("page", PInt 3);
        ("filtering", PStr (json_dumps (status_filter "STATUS_ALL")));
        ("page_size", PInt 10)]
  /\ map fst [("advertiser_id", PStr "B"); ("page", PInt 3);
              ("filtering", PStr (json_dumps (status_filter "STATUS_ALL")));
              ("page_size", PInt 10)]
     = ["advertiser_id"; "page"; "filtering"; "page_size"].
Proof.
  split; [reflexivity|].
  apply (url_params_keys (("include_deleted", PInt 1) :: two_tenants)
           (Some [("parent", PStr "p"); ("advertiser_id", PStr "B")]) (PInt 3)).
  reflexivity.
Defined.

(** ** The resolver *)

(** X6. The resolver raises nothing but its own error, and only for a
    configuration with neither a non-empty list [advertiser_ids] nor a
    non-blank [advertiser_id]. *)
Theorem resolver_failure (config : dict) (e : exn) :
  TikTokStream._configured_advertiser_ids config = Raise e ->
  e = RuntimeError TikTokStream.missing_ids /\ unconfigured config.
Proof.
  intros H. destruct (resolver_cases config) as [(ids & _ & E) | [U E]];
    rewrite E in H.
  - discriminate.
  - injection H as <-. now split.
Qed.

Lemma resolver_failure_witness :
  RuntimeError TikTokStream.missing_ids = RuntimeError TikTokStream.missing_ids
  /\ unconfigured [("advertiser_ids", PStr "1,2"); ("advertiser_id", PNone)].
Proof.
  apply (resolver_failure [("advertiser_ids", PStr "1,2"); ("advertiser_id", PNone)]).
  reflexivity.
Defined.

(** X7. Every identifier the resolver returns has a character that is not
    white space; in particular none is empty. *)
Theorem configured_ids_have_text (config : dict) (ids : list string) (a : string) :
  TikTokStream._configured_advertiser_ids config = Ok ids ->
  In a ids ->
  all_space a = false /\ a <> "".
Proof.
  intros H Hin. pose proof (configured_ids_nonblank _ _ H) as F.
  rewrite Forall_forall in F. specialize (F a Hin).
  split.
  - now rewrite <- blank_all_space.
  - intros ->. discriminate F.
Qed.

Lemma configured_ids_have_text_witness :
  all_space " 12 " = false /\ " 12 " <> "".
Proof.
  apply (configured_ids_have_text
           [("advertiser_ids", PList [PStr ""; PStr " 12 "; PInt 3])]
           [" 12 "; "3"] " 12 ").
  - reflexivity.
  - left. reflexivity.
Defined.

(** ** Record iteration *)

Lemma yield_from_each_map {A B : Type} (f : A -> B) (g : B -> run) (xs : list A) :
  yield_from_each (fun x => g (f x)) xs = yield_from_each g (map f xs).
Proof.
  induction xs as [|x xs IH]; simpl; [reflexivity|]. now rewrite IH.
Qed.

(** X8. [get_records] runs the fetch cycle on one context per resolved
    identifier, in order: the caller's context with [advertiser_id] set to
    that identifier, over any advertiser_id the caller had put there, and
    with every other key as the caller gave it. *)
Theorem get_records_contexts (config : dict) (super_get_records : dict -> run)
        (context : option dict) (ids : list string) :
  TikTokStream._configured_advertiser_ids config = Ok ids ->
  exists contexts,
    TikTokStream.get_records config super_get_records context
    = yield_from_each super_get_records contexts
    /\ Forall2 (fun a c =>
                  dict_get "advertiser_id" c = Some (PStr a)
                  /\ forall k, k <> "advertiser_id" ->
                               dict_get k c = dict_get k (or_empty context))
               ids contexts.
Proof.
  intros H. exists (map (tenant_context context) ids). split.
  - rewrite (get_records_unfold _ _ _ _ H).
    apply (yield_from_each_map (tenant_context context) super_get_records).
  - clear H. induction ids as [|a ids IH]; simpl; constructor; [|exact IH].
    unfold tenant_context. split.
    + apply dict_get_set_same.
    + intros k N. now apply dict_get_set_other.
Qed.

Lemma get_records_contexts_witness :
  exists contexts,
    TikTokStream.get_records two_tenants (fun c => yield (PDict c))
      (Some [("advertiser_id", PStr "Z"); ("parent", PInt 1)])
    = yield_from_each (fun c => yield (PDict c)) contexts
    /\ Forall2 (fun a c =>
                  dict_get "advertiser_id" c = Some (PStr a)
                  /\ forall k, k <> "advertiser_id" ->
                               dict_get k c
                               = dict_get k [("advertiser_id", PStr "Z"); ("parent", PInt 1)])
               ["A"; "B"] contexts.
Proof.
  apply (get_records_contexts two_tenants (fun c => yield (PDict c))
           (Some [("advertiser_id", PStr "Z"); ("parent", PInt 1)]) ["A"; "B"]).
  reflexivity.
Defined.

(** A tenant A whose cycle raises after one record: B is not fetched. *)
Lemma get_records_stops_witness :
  TikTokStream.get_records two_tenants
    (fun c => if py_eq (dict_get_or_none "advertiser_id" c) (PStr "A")
              then mkRun [PInt 1] (Raised TypeError)
              else yield (PInt 2))
    None
  = mkRun [PInt 1] (Raised TypeError).
Proof.
  apply (get_records_stops two_tenants
           (fun c => if py_eq (dict_get_or_none "advertiser_id" c) (PStr "A")
                     then mkRun [PInt 1] (Raised TypeError)
                     else yield (PInt 2))
           None [] ["B"] "A").
  - reflexivity.
  - intros b [].
  - discriminate.
Defined.

(** ** Pagination *)

(** X10. Base variant, on integer or absent page information: a token, when
    there is one, is the current page plus one and does not exceed the page
    count, and there is none exactly when the current page has reached the
    page count. *)
Theorem base_token_bounds (response previous_token : pyval)
        (current_page total_page : Z) :
  page_reads "$.data.page_info.page" response current_page ->
  page_reads "$.data.page_info.total_page" response total_page ->
  (TikTokStream.get_next_page_token response previous_token = Ok PNone
   <-> total_page <= current_page)
  /\ forall n, TikTokStream.get_next_page_token response previous_token = Ok (PInt n) ->
               n = current_page + 1 /\ n <= total_page.
Proof.
  intros Hc Ht. unfold TikTokStream.get_next_page_token.
  rewrite (page_reads_or_zero _ _ _ Hc), (page_reads_or_zero _ _ _ Ht).
  rewrite py_lt_int. cbn [bind].
  destruct (Z.ltb_spec current_page total_page) as [L | L]; cbn.
  - split.
    + split; [discriminate | lia].
    + intros n H. injection H as <-. lia.
  - split.
    + split; [lia | reflexivity].
    + intros n H. discriminate H.
Qed.

Lemma base_token_bounds_witness :
  (TikTokStream.get_next_page_token (page_info_body (PInt 2) (PInt 5)) PNone = Ok PNone
   <-> 5 <= 2)
  /\ forall n,
      TikTokStream.get_next_page_token (page_info_body (PInt 2) (PInt 5)) PNone
      = Ok (PInt n) ->
      n = 2 + 1 /\ n <= 5.
Proof.
  apply (base_token_bounds (page_info_body (PInt 2) (PInt 5)) PNone 2 5); reflexivity.
Defined.

(** X11. Base variant: a page number that comes as a non-empty string never
    gives a next page; the call ends pagination or raises TypeError. *)
Theorem base_string_page (response previous_token : pyval) (s : string) :
  TikTokStream._get_page_info "$.data.page_info.page" response = PStr s ->
  s <> "" ->
  TikTokStream.get_next_page_token response previous_token = Ok PNone
  \/ TikTokStream.get_next_page_token response previous_token = Raise TypeError.
Proof.
  intros H N. unfold TikTokStream.get_next_page_token. rewrite H.
  assert (E : py_or (PStr s) (PInt 0) = PStr s).
  { unfold py_or. simpl. apply String.eqb_neq in N. now rewrite N. }
  rewrite E.
  destruct (py_or (TikTokStream._get_page_info "$.data.page_info.total_page" response)
                  (PInt 0)) as [| | |t| |]; cbn; try (now right).
  destruct (String.ltb s t); [right | left]; reflexivity.
Qed.

Lemma base_string_page_witness :
  TikTokStream.get_next_page_token (page_info_body (PStr "1") (PInt 3)) PNone
  = Raise TypeError
  /\ (TikTokStream.get_next_page_token (page_info_body (PStr "1") (PStr "3")) PNone
      = Ok PNone
      \/ TikTokStream.get_next_page_token (page_info_body (PStr "1") (PStr "3")) PNone
         = Raise TypeError).
Proof.
  split; [reflexivity|].
  apply (base_string_page (page_info_body (PStr "1") (PStr "3")) PNone "1").
  - reflexivity.
  - discriminate.
Defined.

(** X12. On a response whose page and page count are both integers the
    report variant returns what the base variant returns: the current page
    plus one below the page count, and None from there on. *)
Theorem report_token_on_integers (response previous_token : pyval)
        (current_page total_page : Z) :
  next_or_none (extract_jsonpath "$.data.page_info.page" response) = PInt current_page ->
  next_or_none (extract_jsonpath "$.data.page_info.total_page" response)
  = PInt total_page ->
  TikTokReportsStream.get_next_page_token response previous_token
  = Ok (if current_page <? total_page then PInt (current_page + 1) else PNone)
  /\ TikTokReportsStream.get_next_page_token response previous_token
     = TikTokStream.get_next_page_token response previous_token.
Proof.
  intros Hc Ht.
  unfold TikTokReportsStream.get_next_page_token, TikTokStream.get_next_page_token,
    TikTokStream._get_page_info.
  rewrite Hc, Ht, !py_or_int, py_lt_int. cbn [bind].
  destruct (current_page <? total_page); split; reflexivity.
Qed.

Lemma report_token_on_integers_witness :
  TikTokReportsStream.get_next_page_token (page_info_body (PInt 1) (PInt 3)) PNone
  = Ok (PInt 2)
  /\ TikTokReportsStream.get_next_page_token (page_info_body (PInt 1) (PInt 3)) PNone
     = TikTokStream.get_next_page_token (page_info_body (PInt 1) (PInt 3)) PNone.
Proof.
  apply (report_token_on_integers (page_info_body (PInt 1) (PInt 3)) PNone 1 3);
    reflexivity.
Defined.

(** X13. From one response to the next request: when the response shows a
    current page, not negative, below the page count, the token computed
    from it makes [get_url_params] ask for the page after the current one. *)
Theorem next_request_page (config : dict) (context : option dict)
        (response previous_token : pyval) (current_page total_page : Z) (a : string) :
  page_reads "$.data.page_info.page" response current_page ->
  page_reads "$.data.page_info.total_page" response total_page ->
  0 <= current_page < total_page ->
  tenant_of config context = Ok a ->
  exists token params,
    TikTokStream.get_next_page_token response previous_token = Ok token
    /\ TikTokStream.get_url_params config context token = Ok params
    /\ dict_get "page" params = Some (PInt (current_page + 1)).
Proof.
  intros Hc Ht [L0 L] T.
  exists (PInt (current_page + 1)). eexists. split; [|split].
  - unfold TikTokStream.get_next_page_token.
    rewrite (page_reads_or_zero _ _ _ Hc), (page_reads_or_zero _ _ _ Ht).
    rewrite py_lt_int. cbn [bind].
    apply Z.ltb_lt in L. now rewrite L.
  - apply (get_url_params_unfold _ _ _ _ T).
  - assert (E : truthy (PInt (current_page + 1)) = true).
    { simpl. destruct (Z.eqb_spec (current_page + 1) 0); [lia | reflexivity]. }
    rewrite E. reflexivity.
Qed.

Lemma next_request_page_witness :
  exists token params,
    TikTokStream.get_next_page_token (page_info_body (PInt 1) (PInt 3)) PNone = Ok token
    /\ TikTokStream.get_url_params two_tenants None token = Ok params
    /\ dict_get "page" params = Some (PInt (1 + 1)).
Proof.
  apply (next_request_page two_tenants None (page_info_body (PInt 1) (PInt 3))
           PNone 1 3 "A"); try reflexivity. lia.
Defined.

(** A list of three entries, none of them kept. *)
Lemma configured_ids_empty_witness :
  TikTokStream._configured_advertiser_ids blank_ids = Ok [].
Proof.
  apply (proj2 (configured_ids_empty blank_ids)).
  exists (PStr ""), [PNone; PStr "  "]. split; reflexivity.
Defined.

(** ** Report rows *)

(** X15. Post-processing succeeds exactly on a row that is a mapping with
    mappings under [dimensions] and [metrics]; what it returns is a mapping,
    never None, so that no record is dropped by it. *)
Theorem post_process_succeeds (row : pyval) (context : option dict) :
  ((exists v, TikTokReportsStream.post_process row context = Ok v)
   <-> exists r d m, row = PDict r
                     /\ dict_get "dimensions" r = Some (PDict d)
                     /\ dict_get "metrics" r = Some (PDict m))
  /\ forall v, TikTokReportsStream.post_process row context = Ok v ->
               exists flat, v = PDict flat.
Proof.
  unfold TikTokReportsStream.post_process, dict_item.
  destruct row as [| | | | |r];
    try (split; [split; [intros [v H]; discriminate H
                        | intros (r & d & m & H & _); discriminate H]
                | intros v H; discriminate H]).
  destruct (dict_get "dimensions" r) as [[| | | | |d]|] eqn:Ed; cbn [bind];
    try (split; [split; [intros [v H]; discriminate H
                        | intros (r' & d' & m' & Hr & Hd & Hm);
                          injection Hr as <-; congruence]
                | intros v H; discriminate H]).
  destruct (dict_get "metrics" r) as [[| | | | |m]|] eqn:Em; cbn [bind];
    try (split; [split; [intros [v H]; discriminate H
                        | intros (r' & d' & m' & Hr & Hd & Hm);
                          injection Hr as <-; congruence]
                | intros v H; discriminate H]).
  split; [split|].
  - intros _. now exists r, d, m.
  - intros _. eexists. reflexivity.
  - intros v H. injection H as <-. eexists. reflexivity.
Qed.

Lemma post_process_succeeds_witness :
  exists v, TikTokReportsStream.post_process report_row None = Ok v.
Proof.
  apply (proj2 (proj1 (post_process_succeeds report_row None))).
  exists [("dimensions", PDict [("date", PStr "2024-01-01")]);
          ("metrics", PDict [("clicks", PInt 5)])],
         [("date", PStr "2024-01-01")], [("clicks", PInt 5)].
  repeat split.
Defined.

(** X16. On a row that is a mapping, post-processing raises KeyError for
    [dimensions] exactly when the row has no such key, and for [metrics]
    exactly when [dimensions] is a mapping and the row has no [metrics]. *)
Theorem post_process_missing_key (r : dict) (context : option dict) (k : string) :
  TikTokReportsStream.post_process (PDict r) context = Raise (KeyError k)
  <-> (k = "dimensions" /\ dict_get "dimensions" r = None)
      \/ (k = "metrics"
          /\ (exists d, dict_get "dimensions" r = Some (PDict d))
          /\ dict_get "metrics" r = None).
Proof.
  unfold TikTokReportsStream.post_process, dict_item.
  destruct (dict_get "dimensions" r) as [[| | | | |d]|]; cbn [bind];
    try (split; [intros H; discriminate H
                | intros [[_ H] | (_ & [d' H] & _)]; discriminate H]).
  - destruct (dict_get "metrics" r) as [[| | | | |m]|]; cbn [bind];
      try (split; [intros H; discriminate H
                  | intros [[_ H] | (_ & _ & H)]; discriminate H]).
    split.
    + intros H. injection H as <-. right. split; [reflexivity|].
      split; [now exists d | reflexivity].
    + intros [[_ H] | (-> & _ & _)]; [discriminate H | reflexivity].
  - split.
    + intros H. injection H as <-. left. now split.
    + intros [[-> _] | (_ & [d' H] & _)]; [reflexivity | discriminate H].
Qed.

Lemma post_process_missing_key_witness :
  TikTokReportsStream.post_process
    (PDict [("dimensions", PDict [("date", PStr "2024-01-01")])]) None
  = Raise (KeyError "metrics").
Proof.
  apply (proj2 (post_process_missing_key
                  [("dimensions", PDict [("date", PStr "2024-01-01")])] None "metrics")).
  right. split; [reflexivity|]. split; [|reflexivity].
  exists [("date", PStr "2024-01-01")]. reflexivity.
Defined.

(** ** Headers *)

(** X17. The headers have the keys User-Agent (when the configuration has
    [user_agent]), Content-Type and Access-Token, in this order, and no
    other. *)
Theorem http_headers_keys (config headers : dict) :
  TikTokStream.http_headers config = Ok headers ->
  map fst headers =
    ((if dict_mem "user_agent" config then ["User-Agent"] else [])
       ++ ["Content-Type"; "Access-Token"])%list.
Proof.
  destruct (dict_get "access_token" config) as [token|] eqn:E.
  - rewrite (http_headers_unfold _ _ E). intros H. injection H as <-.
    destruct (dict_mem "user_agent" config); reflexivity.
  - rewrite (http_headers_no_token _ E). discriminate.
Qed.

Lemma http_headers_keys_witness :
  map fst [("User-Agent", PNone); ("Content-Type", PStr "application/json");
           ("Access-Token", PStr "secret")]
  = ["User-Agent"; "Content-Type"; "Access-Token"].
Proof.
  apply (http_headers_keys (("user_agent", PNone) :: two_tenants)).
  reflexivity.
Defined.

(** X18. Computing the headers fails exactly when the configuration has no
    [access_token], and then with KeyError for that key; no other key of
    the configuration can make it fail. *)
Theorem http_headers_failure (config : dict) (e : exn) :
  TikTokStream.http_headers config = Raise e
  <-> dict_get "access_token" config = None /\ e = KeyError "access_token".
Proof.
  destruct (dict_get "access_token" config) as [token|] eqn:E.
  - rewrite (http_headers_unfold _ _ E). split; [discriminate|].
    intros [H _]. discriminate H.
  - rewrite (http_headers_no_token _ E). split.
    + intros H. injection H as <-. now split.
    + intros [_ ->]. reflexivity.
Qed.

Lemma http_headers_failure_witness :
  TikTokStream.http_headers [("user_agent", PStr "tap")]
  = Raise (KeyError "access_token").
Proof.
  apply (proj2 (http_headers_failure [("user_agent", PStr "tap")]
                  (KeyError "access_token"))).
  split; reflexivity.
Defined.
